(** * BigQuery logging endpoints of the Fastly API client (fastly/bigquery.go)

    A shallow embedding of the four operations of [bigquery.go]
    (GetBigQuery, CreateBigQuery, UpdateBigQuery, DeleteBigQuery) together
    with the properties their specification states.

    The operations are methods of a [*Client]; the client performs HTTP
    round trips.  Here the client is an explicit state: the remote side
    (an arbitrary world [W] with an arbitrary transition function) and the
    list of requests handed to the transport so far.  Every operation is a
    computation in a small state-and-error monad over that client. *)

From Stdlib Require Import ZArith String Ascii List DecimalString.
From Stdlib Require DecimalPos DecimalZ.
From stdpp Require Import base option gmap strings list.

Local Open Scope string_scope.
Local Open Scope list_scope.

(** ** Errors *)

(** Modelled from the spec: the [ErrMissing*] sentinels are declared in the
    repository's error file, which is not part of the sources at hand; the
    specification lists them as distinct error kinds (section 7).  [Errorf]
    is the value of [fmt.Errorf] applied to a constant message, and
    [ErrForeign] stands for whatever error a collaborator (transport, JSON
    decoder) reports, identified by its message. *)
Inductive error : Type :=
  | ErrMissingService
  | ErrMissingVersion
  | ErrMissingName
  | ErrMissingNewName
  | ErrMissingProjectID
  | ErrMissingDataset
  | ErrMissingTable
  | ErrMissingUser
  | ErrMissingSecretKey
  | Errorf (msg : string)
  | ErrForeign (msg : string).

(** A Go pointer that may be nil. *)
Abbreviation ptr A := (option A) (only parsing).

(** ** fmt.Sprintf, for the verbs the source uses *)

Inductive operand : Type :=
  | OpS (s : string)
  | OpD (n : Z).

(** [%d] on an [int]: optional minus sign, decimal digits, no padding. *)
Definition decimal (n : Z) : string := NilZero.string_of_int (Z.to_int n).

(** What [Sprintf] prints for an operand whose type does not fit the verb. *)
Definition bad_verb (v : ascii) (o : operand) : string :=
  match o with
  | OpS s => "%!" +:+ String v ("(string=" +:+ s +:+ ")")
  | OpD n => "%!" +:+ String v ("(int=" +:+ decimal n +:+ ")")
  end.

Definition verb (v : ascii) (o : operand) : string :=
  match o with
  | OpS s => if Ascii.eqb v "s" then s else bad_verb v o
  | OpD n => if Ascii.eqb v "d" then decimal n else bad_verb v o
  end.

Fixpoint extra (args : list operand) : string :=
  match args with
  | [] => ""
  | [o] => match o with OpS s => "string=" +:+ s | OpD n => "int=" +:+ decimal n end
  | o :: rest =>
      match o with OpS s => "string=" +:+ s | OpD n => "int=" +:+ decimal n end
        +:+ ", " +:+ extra rest
  end.

(** The format string is copied; [%s] and [%d] consume the next operand,
    [%%] prints a percent sign.  Only these verbs are modelled (the source
    uses no other); Go's diagnostics for missing and surplus operands are
    kept. *)
Fixpoint Sprintf (format : string) (args : list operand) : string :=
  match format with
  | "" => match args with [] => "" | _ => "%!(EXTRA " +:+ extra args +:+ ")" end
  | String c rest =>
      if Ascii.eqb c "%" then
        match rest with
        | "" => "%!(NOVERB)" +:+
                match args with [] => "" | _ => "%!(EXTRA " +:+ extra args +:+ ")" end
        | String v rest' =>
            if Ascii.eqb v "%" then String "%" (Sprintf rest' args)
            else match args with
                 | [] => "%!" +:+ String v ("(MISSING)" +:+ Sprintf rest' [])
                 | o :: args' => verb v o +:+ Sprintf rest' args'
                 end
        end
      else String c (Sprintf rest args)
  end.

(** ** Data model *)

(** BigQuery represents a BigQuery logging response from the Fastly API. *)
Module BigQuery.
Record t : Type := {
  ServiceID : string;
  Name : string;
  Format : string;
  User : string;
  ProjectID : string;
  Dataset : string;
  Table : string;
  SecretKey : string;
  CreatedAt : string;
  UpdatedAt : string;
  DeletedAt : string;
  ResponseCondition : string
}.
End BigQuery.

(** The input structures.  [Version] is a Go [int]: a signed machine
    integer, which the source only compares with zero and prints, so no
    arithmetic on it can wrap. *)
Module GetBigQueryInput.
Record t : Type := { Service : string; Version : Z }.
End GetBigQueryInput.

Module CreateBigQueryInput.
Record t : Type := {
  Service : string;
  Version : Z;
  Name : string;
  ProjectID : string;
  Dataset : string;
  Table : string;
  User : string;
  SecretKey : string
}.
End CreateBigQueryInput.

Module UpdateBigQueryInput.
Record t : Type := {
  Service : string;
  Version : Z;
  Name : string;
  NewName : string
}.
End UpdateBigQueryInput.

Module DeleteBigQueryInput.
Record t : Type := { Service : string; Version : Z; Name : string }.
End DeleteBigQueryInput.

(** ** The HTTP client *)

Inductive method : Type := GET | POST | PUT | DELETE.

(** The only field of [RequestOptions] the source sets. *)
Record RequestOptions : Type := { Params : gmap string string }.

(** The value handed to [PostForm] / [PutForm] as the form to encode: the
    operation's own input structure. *)
Inductive form_input : Type :=
  | FormCreate (i : CreateBigQueryInput.t)
  | FormUpdate (i : UpdateBigQueryInput.t).

Record Request : Type := {
  Method : method;
  Path : string;
  Form : ptr form_input;
  Options : ptr RequestOptions
}.

Record Response : Type := { Body : string }.

(** The client: the remote side it talks to and the requests it has issued. *)
Record Client (W : Type) : Type := {
  conn : W;
  sent : list Request
}.
Arguments conn {W} _.
Arguments sent {W} _.

(** Outcome of a Go call: a value with a nil error, a non-nil error, or a
    run-time panic. *)
Inductive result (A : Type) : Type :=
  | Val (a : A)
  | Fail (e : error)
  | Panic.
Arguments Val {A} a.
Arguments Fail {A} e.
Arguments Panic {A}.

Definition M (W A : Type) : Type := Client W -> result A * Client W.

Definition ret {W A} (a : A) : M W A := fun c => (Val a, c).
Definition fail {W A} (e : error) : M W A := fun c => (Fail e, c).
Definition panic {W A} : M W A := fun c => (Panic, c).

Definition bind {W A B} (m : M W A) (k : A -> M W B) : M W B :=
  fun c =>
    match m c with
    | (Val a, c') => k a c'
    | (Fail e, c') => (Fail e, c')
    | (Panic, c') => (Panic, c')
    end.

Declare Scope go_scope.
Delimit Scope go_scope with go.
Notation "x <- m ;; k" := (bind m (fun x => k))
  (at level 100, m at next level, right associativity) : go_scope.

(** [if err != nil { return ..., err }] after a call returning [(T, error)]. *)
Definition lift {W A} (r : error + A) : M W A :=
  match r with
  | inl e => fail e
  | inr a => ret a
  end.

(** The JSON decoder, per target type: [decodeJSON(&out, body)] either
    reports an error or leaves the decoded value in [out]. *)
Class JSONTarget (T : Type) : Type := decodeJSON : string -> error + T.

(** ** The operations of bigquery.go *)

Section Operations.

(** The remote side: any world, any behaviour. *)
Context {W : Type} (send : Request -> W -> (error + Response) * W).

(** The status record and its acknowledgment test [Ok()], declared
    elsewhere in the repository. *)
Context {statusResp : Type} (Ok : statusResp -> bool).

(** The JSON decoder at the three types the source decodes into. *)
Context {dec_list : JSONTarget (list (ptr BigQuery.t))}
        {dec_one : JSONTarget (ptr BigQuery.t)}
        {dec_status : JSONTarget (ptr statusResp)}.

Local Open Scope go_scope.

(** Modelled from the spec: the client's request helpers [Get],
    [PostForm], [PutForm] and [Delete] live in the repository's client
    file, which is not part of the sources at hand.  Per the
    specification (section 2) each performs one HTTP exchange with the
    corresponding verb and returns a readable response body or the
    transport's error; here each records the request and asks the remote
    side for its answer. *)
Definition roundtrip (r : Request) : M W Response :=
  fun c =>
    let '(a, w) := send r (conn c) in
    lift a {| conn := w; sent := sent c ++ [r] |}.

Definition Get (path : string) (ro : ptr RequestOptions) : M W Response :=
  roundtrip {| Method := GET; Path := path; Form := None; Options := ro |}.

Definition PostForm (path : string) (i : form_input) (ro : ptr RequestOptions)
  : M W Response :=
  roundtrip {| Method := POST; Path := path; Form := Some i; Options := ro |}.

Definition PutForm (path : string) (i : form_input) (ro : ptr RequestOptions)
  : M W Response :=
  roundtrip {| Method := PUT; Path := path; Form := Some i; Options := ro |}.

Definition Delete (path : string) (ro : ptr RequestOptions) : M W Response :=
  roundtrip {| Method := DELETE; Path := path; Form := None; Options := ro |}.

(** GetBigQuery lists all BigQuerys associated with a service version. *)
Definition GetBigQuery (i : GetBigQueryInput.t) : M W (list (ptr BigQuery.t)) :=
  if String.eqb i.(GetBigQueryInput.Service) "" then fail ErrMissingService else
  if Z.eqb i.(GetBigQueryInput.Version) 0 then fail ErrMissingVersion else
  let path := Sprintf "/service/%s/version/%d/logging/bigquery"
                [OpS i.(GetBigQueryInput.Service); OpD i.(GetBigQueryInput.Version)] in
  resp <- Get path None ;;
  bs <- lift (decodeJSON (T := list (ptr BigQuery.t)) resp.(Body)) ;;
  ret bs.

(** CreateBigQuery creates a new Fastly BigQuery logging endpoint. *)
Definition CreateBigQuery (i : CreateBigQueryInput.t) : M W (ptr BigQuery.t) :=
  if String.eqb i.(CreateBigQueryInput.Service) "" then fail ErrMissingService else
  if Z.eqb i.(CreateBigQueryInput.Version) 0 then fail ErrMissingVersion else
  if String.eqb i.(CreateBigQueryInput.Name) "" then fail ErrMissingName else
  if String.eqb i.(CreateBigQueryInput.ProjectID) "" then fail ErrMissingProjectID else
  if String.eqb i.(CreateBigQueryInput.Dataset) "" then fail ErrMissingDataset else
  if String.eqb i.(CreateBigQueryInput.Table) "" then fail ErrMissingTable else
  if String.eqb i.(CreateBigQueryInput.User) "" then fail ErrMissingUser else
  if String.eqb i.(CreateBigQueryInput.SecretKey) "" then fail ErrMissingSecretKey else
  let params : gmap string string := ∅ in
  let params := <["name" := i.(CreateBigQueryInput.Name)]> params in
  let params := <["project_id" := i.(CreateBigQueryInput.ProjectID)]> params in
  let params := <["dataset" := i.(CreateBigQueryInput.Dataset)]> params in
  let params := <["table" := i.(CreateBigQueryInput.Table)]> params in
  let params := <["user" := i.(CreateBigQueryInput.User)]> params in
  let params := <["secret_key" := i.(CreateBigQueryInput.SecretKey)]> params in
  let path := Sprintf "/service/%s/version/%d/logging/gcs"
                [OpS i.(CreateBigQueryInput.Service);
                 OpD i.(CreateBigQueryInput.Version)] in
  resp <- PostForm path (FormCreate i) (Some {| Params := params |}) ;;
  b <- lift (decodeJSON (T := ptr BigQuery.t) resp.(Body)) ;;
  ret b.

(** UpdateBigQuery updates a BigQuery logging endpoint. *)
Definition UpdateBigQuery (i : UpdateBigQueryInput.t) : M W (ptr BigQuery.t) :=
  if String.eqb i.(UpdateBigQueryInput.Service) "" then fail ErrMissingService else
  if Z.eqb i.(UpdateBigQueryInput.Version) 0 then fail ErrMissingVersion else
  if String.eqb i.(UpdateBigQueryInput.Name) "" then fail ErrMissingName else
  if String.eqb i.(UpdateBigQueryInput.NewName) "" then fail ErrMissingNewName else
  let params : gmap string string := ∅ in
  let params := <["name" := i.(UpdateBigQueryInput.NewName)]> params in
  let path := Sprintf "/service/%s/version/%d/logging/bigquery/%s"
                [OpS i.(UpdateBigQueryInput.Service);
                 OpD i.(UpdateBigQueryInput.Version);
                 OpS i.(UpdateBigQueryInput.Name)] in
  resp <- PutForm path (FormUpdate i) (Some {| Params := params |}) ;;
  b <- lift (decodeJSON (T := ptr BigQuery.t) resp.(Body)) ;;
  ret b.

(** [r.Ok()] on the decoded pointer: the acknowledgment is read from the
    record, so a nil [r] is a nil dereference. *)
Definition call_Ok (r : ptr statusResp) : M W bool :=
  match r with
  | None => panic
  | Some s => ret (Ok s)
  end.

(** DeleteBigQuery deletes the given BigQuery logging endpoint. *)
Definition DeleteBigQuery (i : DeleteBigQueryInput.t) : M W unit :=
  if String.eqb i.(DeleteBigQueryInput.Service) "" then fail ErrMissingService else
  if Z.eqb i.(DeleteBigQueryInput.Version) 0 then fail ErrMissingVersion else
  if String.eqb i.(DeleteBigQueryInput.Name) "" then fail ErrMissingName else
  let path := Sprintf "/service/%s/version/%d/logging/bigquery/%s"
                [OpS i.(DeleteBigQueryInput.Service);
                 OpD i.(DeleteBigQueryInput.Version);
                 OpS i.(DeleteBigQueryInput.Name)] in
  resp <- Delete path None ;;
  r <- lift (decodeJSON (T := ptr statusResp) resp.(Body)) ;;
  ok <- call_Ok r ;;
  if negb ok then fail (Errorf "Not Ok") else ret tt.

(** The four operations under one type, for statements that range over
    "every operation": an invocation, what it returns, and the dispatch. *)
Inductive operation : Type :=
  | OpGet (i : GetBigQueryInput.t)
  | OpCreate (i : CreateBigQueryInput.t)
  | OpUpdate (i : UpdateBigQueryInput.t)
  | OpDelete (i : DeleteBigQueryInput.t).

Inductive reply : Type :=
  | Listed (bs : list (ptr BigQuery.t))
  | Created (b : ptr BigQuery.t)
  | Updated (b : ptr BigQuery.t)
  | Deleted.

Definition perform (o : operation) : M W reply :=
  match o with
  | OpGet i => bs <- GetBigQuery i ;; ret (Listed bs)
  | OpCreate i => b <- CreateBigQuery i ;; ret (Created b)
  | OpUpdate i => b <- UpdateBigQuery i ;; ret (Updated b)
  | OpDelete i => _ <- DeleteBigQuery i ;; ret Deleted
  end.

End Operations.

(** ** A scripted remote side, for running the operations

    The world is the list of answers the transport will give, in order; an
    exhausted script refuses the connection.  Bodies are short tokens
    standing for JSON documents, decoded by a table. *)
Module Demo.

Definition World : Type := list (error + Response).

Definition send (r : Request) (w : World) : (error + Response) * World :=
  match w with
  | [] => (inl (ErrForeign "connection refused"), [])
  | a :: w' => (a, w')
  end.

(** Modelled from the spec: the status record is declared elsewhere in
    the repository; the specification describes it as a
    status-acknowledgment object whose status field is affirmative when
    it reads ok (sections 6 and 8). *)
Record statusResp : Type := { Status : string; Msg : string }.

Definition Ok (r : statusResp) : bool := String.eqb (Status r) "ok".

Definition endpoint (svc name : string) : BigQuery.t :=
  {| BigQuery.ServiceID := svc; BigQuery.Name := name;
     BigQuery.Format := "%h"; BigQuery.User := "u";
     BigQuery.ProjectID := "p"; BigQuery.Dataset := "d";
     BigQuery.Table := "t"; BigQuery.SecretKey := "k";
     BigQuery.CreatedAt := "2017-01-01"; BigQuery.UpdatedAt := "2017-01-02";
     BigQuery.DeletedAt := ""; BigQuery.ResponseCondition := "" |}.

#[export] Instance decode_list : JSONTarget (list (ptr BigQuery.t)) :=
  fun body =>
    if String.eqb body "[]" then inr []
    else if String.eqb body "[a,b]"
         then inr [Some (endpoint "svc123" "a"); Some (endpoint "svc123" "b")]
    else if String.eqb body "[b,a,b]"
         then inr [Some (endpoint "svc123" "b"); Some (endpoint "svc123" "a");
                   Some (endpoint "svc123" "b")]
    else inl (ErrForeign "invalid JSON").

#[export] Instance decode_one : JSONTarget (ptr BigQuery.t) :=
  fun body =>
    if String.eqb body "null" then inr None
    else if String.eqb body "a" then inr (Some (endpoint "svc123" "a"))
    else inl (ErrForeign "invalid JSON").

#[export] Instance decode_status : JSONTarget (ptr statusResp) :=
  fun body =>
    if String.eqb body "null" then inr None
    else if String.eqb body "ok" then inr (Some {| Status := "ok"; Msg := "" |})
    else if String.eqb body "ko"
         then inr (Some {| Status := "error"; Msg := "Record not found" |})
    else inl (ErrForeign "invalid JSON").

Definition client (script : World) : Client World :=
  {| conn := script; sent := [] |}.

Definition get_input : GetBigQueryInput.t :=
  {| GetBigQueryInput.Service := "svc123"; GetBigQueryInput.Version := 3 |}.

Definition create_input : CreateBigQueryInput.t :=
  {| CreateBigQueryInput.Service := "svc123"; CreateBigQueryInput.Version := 3;
     CreateBigQueryInput.Name := "logs"; CreateBigQueryInput.ProjectID := "proj";
     CreateBigQueryInput.Dataset := "ds"; CreateBigQueryInput.Table := "tbl";
     CreateBigQueryInput.User := "writer";
     CreateBigQueryInput.SecretKey := "s3cr3t" |}.

Definition update_input : UpdateBigQueryInput.t :=
  {| UpdateBigQueryInput.Service := "svc123"; UpdateBigQueryInput.Version := 3;
     UpdateBigQueryInput.Name := "old-endpoint";
     UpdateBigQueryInput.NewName := "new-endpoint" |}.

Definition delete_input : DeleteBigQueryInput.t :=
  {| DeleteBigQueryInput.Service := "svc123"; DeleteBigQueryInput.Version := 3;
     DeleteBigQueryInput.Name := "old-endpoint" |}.

Definition negative_version_input : GetBigQueryInput.t :=
  {| GetBigQueryInput.Service := "svc123"; GetBigQueryInput.Version := -1 |}.

Definition no_table_no_user_input : CreateBigQueryInput.t :=
  {| CreateBigQueryInput.Service := "svc123"; CreateBigQueryInput.Version := 3;
     CreateBigQueryInput.Name := "logs"; CreateBigQueryInput.ProjectID := "proj";
     CreateBigQueryInput.Dataset := "ds"; CreateBigQueryInput.Table := "";
     CreateBigQueryInput.User := "";
     CreateBigQueryInput.SecretKey := "s3cr3t" |}.

Definition same_name_input : UpdateBigQueryInput.t :=
  {| UpdateBigQueryInput.Service := "svc123"; UpdateBigQueryInput.Version := 3;
     UpdateBigQueryInput.Name := "endpoint";
     UpdateBigQueryInput.NewName := "endpoint" |}.

Definition unnamed_update_input : UpdateBigQueryInput.t :=
  {| UpdateBigQueryInput.Service := "svc123"; UpdateBigQueryInput.Version := 3;
     UpdateBigQueryInput.Name := ""; UpdateBigQueryInput.NewName := "" |}.

Definition no_new_name_input : UpdateBigQueryInput.t :=
  {| UpdateBigQueryInput.Service := "svc123"; UpdateBigQueryInput.Version := 3;
     UpdateBigQueryInput.Name := "old-endpoint";
     UpdateBigQueryInput.NewName := "" |}.

Definition unnamed_delete_input : DeleteBigQueryInput.t :=
  {| DeleteBigQueryInput.Service := "svc123"; DeleteBigQueryInput.Version := 3;
     DeleteBigQueryInput.Name := "" |}.

Definition blank_delete_input : DeleteBigQueryInput.t :=
  {| DeleteBigQueryInput.Service := " "; DeleteBigQueryInput.Version := 3;
     DeleteBigQueryInput.Name := " " |}.

(** An invocation run against a script, from a client that has sent
    nothing yet. *)
Definition run (o : operation) (script : World) : result reply * Client World :=
  perform send Ok o (client script).

End Demo.

(** ** The specification's vocabulary *)

Definition op_Service (o : operation) : string :=
  match o with
  | OpGet i => i.(GetBigQueryInput.Service)
  | OpCreate i => i.(CreateBigQueryInput.Service)
  | OpUpdate i => i.(UpdateBigQueryInput.Service)
  | OpDelete i => i.(DeleteBigQueryInput.Service)
  end.

Definition op_Version (o : operation) : Z :=
  match o with
  | OpGet i => i.(GetBigQueryInput.Version)
  | OpCreate i => i.(CreateBigQueryInput.Version)
  | OpUpdate i => i.(UpdateBigQueryInput.Version)
  | OpDelete i => i.(DeleteBigQueryInput.Version)
  end.

(** The required string fields of an invocation, service first. *)
Definition op_strings (o : operation) : list string :=
  match o with
  | OpGet i => [i.(GetBigQueryInput.Service)]
  | OpCreate i =>
      [i.(CreateBigQueryInput.Service); i.(CreateBigQueryInput.Name);
       i.(CreateBigQueryInput.ProjectID); i.(CreateBigQueryInput.Dataset);
       i.(CreateBigQueryInput.Table); i.(CreateBigQueryInput.User);
       i.(CreateBigQueryInput.SecretKey)]
  | OpUpdate i =>
      [i.(UpdateBigQueryInput.Service); i.(UpdateBigQueryInput.Name);
       i.(UpdateBigQueryInput.NewName)]
  | OpDelete i => [i.(DeleteBigQueryInput.Service); i.(DeleteBigQueryInput.Name)]
  end.

(** An invocation passes validation, in the specification's sense: every
    required string is non-empty and the version is non-zero. *)
Definition passes_validation (o : operation) : Prop :=
  Forall (fun s => s <> "") (op_strings o) /\ op_Version o <> 0%Z.

(** The validation order of Create as the specification words it: service,
    version, name, project ID, dataset, table, user, secret key; each entry
    says whether the field is missing and which error names it. *)
Definition spec_create_order (i : CreateBigQueryInput.t) : list (bool * error) :=
  [ (String.eqb i.(CreateBigQueryInput.Service) "", ErrMissingService);
    (Z.eqb i.(CreateBigQueryInput.Version) 0, ErrMissingVersion);
    (String.eqb i.(CreateBigQueryInput.Name) "", ErrMissingName);
    (String.eqb i.(CreateBigQueryInput.ProjectID) "", ErrMissingProjectID);
    (String.eqb i.(CreateBigQueryInput.Dataset) "", ErrMissingDataset);
    (String.eqb i.(CreateBigQueryInput.Table) "", ErrMissingTable);
    (String.eqb i.(CreateBigQueryInput.User) "", ErrMissingUser);
    (String.eqb i.(CreateBigQueryInput.SecretKey) "", ErrMissingSecretKey) ].

(** "First missing field wins." *)
Fixpoint first_missing (checks : list (bool * error)) : option error :=
  match checks with
  | [] => None
  | (missing, e) :: rest => if missing then Some e else first_missing rest
  end.

(** The endpoints of section 6 of the specification, written by
    concatenation. *)
Definition logging_path (svc : string) (v : Z) (resource : string) : string :=
  "/service/" +:+ svc +:+ "/version/" +:+ decimal v +:+ "/logging/" +:+ resource.

Definition spec_create_params (i : CreateBigQueryInput.t) : gmap string string :=
  list_to_map
    [ ("name", i.(CreateBigQueryInput.Name));
      ("project_id", i.(CreateBigQueryInput.ProjectID));
      ("dataset", i.(CreateBigQueryInput.Dataset));
      ("table", i.(CreateBigQueryInput.Table));
      ("user", i.(CreateBigQueryInput.User));
      ("secret_key", i.(CreateBigQueryInput.SecretKey)) ].

Definition spec_request (o : operation) : Request :=
  match o with
  | OpGet i =>
      {| Method := GET;
         Path := logging_path i.(GetBigQueryInput.Service)
                   i.(GetBigQueryInput.Version) "bigquery";
         Form := None; Options := None |}
  | OpCreate i =>
      {| Method := POST;
         Path := logging_path i.(CreateBigQueryInput.Service)
                   i.(CreateBigQueryInput.Version) "gcs";
         Form := Some (FormCreate i);
         Options := Some {| Params := spec_create_params i |} |}
  | OpUpdate i =>
      {| Method := PUT;
         Path := logging_path i.(UpdateBigQueryInput.Service)
                   i.(UpdateBigQueryInput.Version)
                   ("bigquery/" +:+ i.(UpdateBigQueryInput.Name));
         Form := Some (FormUpdate i);
         Options := Some {| Params := {[ "name" := i.(UpdateBigQueryInput.NewName) ]} |} |}
  | OpDelete i =>
      {| Method := DELETE;
         Path := logging_path i.(DeleteBigQueryInput.Service)
                   i.(DeleteBigQueryInput.Version)
                   ("bigquery/" +:+ i.(DeleteBigQueryInput.Name));
         Form := None; Options := None |}
  end.

(** A string made of blanks only. *)
Definition is_space (a : ascii) : bool :=
  Ascii.eqb a " " || Ascii.eqb a "009" || Ascii.eqb a "010" || Ascii.eqb a "013".

Fixpoint whitespace (s : string) : bool :=
  match s with
  | "" => true
  | String a rest => is_space a && whitespace rest
  end.

(** String [s] travels in request [r]: inside its path, or as the value of
    one of its parameters. *)
Definition embedded (s : string) (r : Request) : Prop :=
  (exists pre post : string, Path r = pre +:+ s +:+ post) \/
  (exists (ro : RequestOptions) (k : string),
      Options r = Some ro /\ Params ro !! k = Some s).

(** A computation that leaves the client as it found it. *)
Definition silent {W A B} (k : A -> M W B) : Prop :=
  forall a c, snd (k a c) = c.

(** The client after request [r] has been handed to the transport. *)
Definition after {W} (send : Request -> W -> (error + Response) * W)
    (r : Request) (c : Client W) : Client W :=
  {| conn := snd (send r (conn c)); sent := sent c ++ [r] |}.

(** What the transport answers to [r]. *)
Definition answer {W} (send : Request -> W -> (error + Response) * W)
    (r : Request) (c : Client W) : error + Response :=
  fst (send r (conn c)).

(** Decode the answer's body at type [T]; errors pass through unchanged. *)
Definition decoded {T} `{JSONTarget T} (a : error + Response) : result T :=
  match a with
  | inl e => Fail e
  | inr resp =>
      match decodeJSON (T := T) resp.(Body) with
      | inl e => Fail e
      | inr v => Val v
      end
  end.

(** The acknowledgment test on the decoded status pointer. *)
Definition acknowledged {statusResp} (Ok : statusResp -> bool)
    (r : result (ptr statusResp)) : result unit :=
  match r with
  | Val (Some s) => if Ok s then Val tt else Fail (Errorf "Not Ok")
  | Val None => Panic
  | Fail e => Fail e
  | Panic => Panic
  end.

(** The nine errors the validation guards return. *)
Definition is_missing (e : error) : bool :=
  match e with
  | Errorf _ | ErrForeign _ => false
  | _ => true
  end.

(** The decoder an operation applies to the body of the answer reports
    error [e]: at a list of endpoints for Get, at one endpoint for Create
    and Update, at a status record for Delete. *)
Definition decode_fails {statusResp : Type}
    `{JSONTarget (list (ptr BigQuery.t)), JSONTarget (ptr BigQuery.t),
      JSONTarget (ptr statusResp)}
    (o : operation) (body : string) (e : error) : Prop :=
  match o with
  | OpGet _ => decodeJSON (T := list (ptr BigQuery.t)) body = inl e
  | OpCreate _ | OpUpdate _ => decodeJSON (T := ptr BigQuery.t) body = inl e
  | OpDelete _ => decodeJSON (T := ptr statusResp) body = inl e
  end.

(** ** Strings, paths and parameters *)

Lemma append_empty_r (s : string) : s +:+ "" = s.
Proof.
  induction s as [|a s IH]; [reflexivity|].
  change (String a (s +:+ "") = String a s). now rewrite IH.
Qed.

Lemma append_assoc (s t u : string) : (s +:+ t) +:+ u = s +:+ t +:+ u.
Proof.
  induction s as [|a s IH]; [reflexivity|].
  change (String a ((s +:+ t) +:+ u) = String a (s +:+ t +:+ u)). now rewrite IH.
Qed.

Lemma nonempty_eqb (s : string) : s <> "" -> String.eqb s "" = false.
Proof. intros H. now apply String.eqb_neq. Qed.

Lemma nonzero_eqb (n : Z) : n <> 0%Z -> Z.eqb n 0 = false.
Proof. intros H. now apply Z.eqb_neq. Qed.

Lemma Sprintf_bigquery (svc : string) (v : Z) :
  Sprintf "/service/%s/version/%d/logging/bigquery" [OpS svc; OpD v]
  = logging_path svc v "bigquery".
Proof. reflexivity. Qed.

Lemma Sprintf_gcs (svc : string) (v : Z) :
  Sprintf "/service/%s/version/%d/logging/gcs" [OpS svc; OpD v]
  = logging_path svc v "gcs".
Proof. reflexivity. Qed.

Lemma Sprintf_bigquery_item (svc name : string) (v : Z) :
  Sprintf "/service/%s/version/%d/logging/bigquery/%s" [OpS svc; OpD v; OpS name]
  = logging_path svc v ("bigquery/" +:+ name).
Proof.
  change (logging_path svc v ("bigquery/" +:+ (name +:+ ""))
          = logging_path svc v ("bigquery/" +:+ name)).
  now rewrite append_empty_r.
Qed.

Example decimal_examples :
  decimal 3 = "3" /\ decimal (-1) = "-1" /\ decimal 120 = "120".
Proof. repeat split; reflexivity. Qed.

Example Sprintf_svc123 :
  Sprintf "/service/%s/version/%d/logging/bigquery" [OpS "svc123"; OpD 3]
  = "/service/svc123/version/3/logging/bigquery".
Proof. reflexivity. Qed.

Example Sprintf_missing_operand :
  Sprintf "/version/%d/%s" [OpD 7] = "/version/7/%!s(MISSING)".
Proof. reflexivity. Qed.

Example Sprintf_wrong_operand :
  Sprintf "/version/%d" [OpS "seven"] = "/version/%!d(string=seven)".
Proof. reflexivity. Qed.

Lemma create_params_eq (i : CreateBigQueryInput.t) :
  <["secret_key" := i.(CreateBigQueryInput.SecretKey)]>
    (<["user" := i.(CreateBigQueryInput.User)]>
       (<["table" := i.(CreateBigQueryInput.Table)]>
          (<["dataset" := i.(CreateBigQueryInput.Dataset)]>
             (<["project_id" := i.(CreateBigQueryInput.ProjectID)]>
                (<["name" := i.(CreateBigQueryInput.Name)]> ∅)))))
  = spec_create_params i.
Proof. vm_compute. reflexivity. Qed.

Lemma create_params_size (i : CreateBigQueryInput.t) :
  size (spec_create_params i) = 6.
Proof. vm_compute. reflexivity. Qed.

(** ** Running the operations *)

Section Properties.

Context {W : Type} (send : Request -> W -> (error + Response) * W).
Context {statusResp : Type} (Ok : statusResp -> bool).
Context {dec_list : JSONTarget (list (ptr BigQuery.t))}
        {dec_one : JSONTarget (ptr BigQuery.t)}
        {dec_status : JSONTarget (ptr statusResp)}.

Lemma roundtrip_run (r : Request) (c : Client W) :
  roundtrip send r c
  = (match answer send r c with inl e => Fail e | inr resp => Val resp end, after send r c).
Proof.
  unfold roundtrip, answer, after.
  destruct (send r (conn c)) as [[e|resp] w]; reflexivity.
Qed.

Lemma exchange_run {T} `{JSONTarget T} (r : Request) (c : Client W) :
  bind (roundtrip send r)
       (fun resp => bind (lift (decodeJSON (T := T) resp.(Body))) (fun v => ret v)) c
  = (decoded (answer send r c), after send r c).
Proof.
  unfold bind. rewrite roundtrip_run. unfold decoded.
  destruct (answer send r c) as [e|resp]; [reflexivity|].
  destruct (decodeJSON (Body resp)) as [e|v]; reflexivity.
Qed.

Lemma bind_silent {A B} (m : M W A) (k : A -> M W B) (c : Client W) :
  silent k -> snd (bind m k c) = snd (m c).
Proof.
  intros Hk. unfold bind.
  destruct (m c) as [[a|e|] c']; [apply Hk | reflexivity | reflexivity].
Qed.

Lemma bind_fail {A B} (k : A -> M W B) (e : error) (c : Client W) :
  bind (fail e) k c = (Fail e, c).
Proof. reflexivity. Qed.

(** Rewrites the guards of an operation whose input passes them. *)
Ltac pass_guards :=
  repeat match goal with
         | H : ?s <> "" |- _ => rewrite (nonempty_eqb s H)
         | H : ?n <> 0%Z |- _ => rewrite (nonzero_eqb n H)
         end.

Lemma GetBigQuery_run (i : GetBigQueryInput.t) (c : Client W) :
  passes_validation (OpGet i) ->
  GetBigQuery send i c
  = (decoded (answer send (spec_request (OpGet i)) c), after send (spec_request (OpGet i)) c).
Proof.
  intros [Hs Hv]. cbn in Hs, Hv.
  apply Forall_cons_iff in Hs as [Hsvc _].
  unfold GetBigQuery. pass_guards. cbv zeta.
  rewrite Sprintf_bigquery. apply exchange_run.
Qed.

Lemma CreateBigQuery_run (i : CreateBigQueryInput.t) (c : Client W) :
  passes_validation (OpCreate i) ->
  CreateBigQuery send i c
  = (decoded (answer send (spec_request (OpCreate i)) c),
     after send (spec_request (OpCreate i)) c).
Proof.
  intros [Hs Hv]. cbn in Hs, Hv.
  repeat (apply Forall_cons_iff in Hs as [? Hs]).
  unfold CreateBigQuery. pass_guards. cbv zeta.
  rewrite Sprintf_gcs, create_params_eq. apply exchange_run.
Qed.

Lemma UpdateBigQuery_run (i : UpdateBigQueryInput.t) (c : Client W) :
  passes_validation (OpUpdate i) ->
  UpdateBigQuery send i c
  = (decoded (answer send (spec_request (OpUpdate i)) c),
     after send (spec_request (OpUpdate i)) c).
Proof.
  intros [Hs Hv]. cbn in Hs, Hv.
  repeat (apply Forall_cons_iff in Hs as [? Hs]).
  unfold UpdateBigQuery. pass_guards. cbv zeta.
  rewrite Sprintf_bigquery_item. apply exchange_run.
Qed.

Lemma DeleteBigQuery_run (i : DeleteBigQueryInput.t) (c : Client W) :
  passes_validation (OpDelete i) ->
  DeleteBigQuery send Ok i c
  = (acknowledged Ok (decoded (answer send (spec_request (OpDelete i)) c)),
     after send (spec_request (OpDelete i)) c).
Proof.
  intros [Hs Hv]. cbn in Hs, Hv.
  repeat (apply Forall_cons_iff in Hs as [? Hs]).
  unfold DeleteBigQuery. pass_guards. cbv zeta.
  rewrite Sprintf_bigquery_item.
  unfold bind, Delete. rewrite roundtrip_run. unfold decoded, acknowledged.
  cbn [spec_request].
  destruct (answer send _ c) as [e|resp]; [reflexivity|].
  destruct (decodeJSON (Body resp)) as [e|[s|]]; cbn; try reflexivity.
  destruct (Ok s); reflexivity.
Qed.

Lemma perform_run (o : operation) (c : Client W) :
  passes_validation o ->
  snd (perform send Ok o c) = after send (spec_request o) c.
Proof.
  intros Hv. destruct o as [i|i|i|i]; unfold perform;
    (rewrite bind_silent; [|intros a c'; reflexivity]).
  - now rewrite GetBigQuery_run.
  - now rewrite CreateBigQuery_run.
  - now rewrite UpdateBigQuery_run.
  - now rewrite DeleteBigQuery_run.
Qed.

(** A failed guard ends the invocation where it stands. *)
Lemma perform_missing_service (o : operation) (c : Client W) :
  op_Service o = "" -> perform send Ok o c = (Fail ErrMissingService, c).
Proof.
  intros H. destruct o as [i|i|i|i]; cbn in H; unfold perform, bind;
    [unfold GetBigQuery | unfold CreateBigQuery
    | unfold UpdateBigQuery | unfold DeleteBigQuery];
    rewrite H; reflexivity.
Qed.

Lemma perform_missing_version (o : operation) (c : Client W) :
  op_Service o <> "" -> op_Version o = 0%Z ->
  perform send Ok o c = (Fail ErrMissingVersion, c).
Proof.
  intros Hs Hv. destruct o as [i|i|i|i]; cbn in Hs, Hv; unfold perform, bind;
    [unfold GetBigQuery | unfold CreateBigQuery
    | unfold UpdateBigQuery | unfold DeleteBigQuery];
    rewrite (nonempty_eqb _ Hs), Hv; reflexivity.
Qed.

(** ** Properties of the operations *)

(** C1. CreateBigQuery checks service, version, name, project ID, dataset,
    table, user and secret key in that order: whenever some field is
    missing, the call returns the error of the first missing one and leaves
    the client untouched, so nothing has been sent. *)
Theorem CreateBigQuery_first_missing_wins
    (i : CreateBigQueryInput.t) (c : Client W) (e : error) :
  first_missing (spec_create_order i) = Some e ->
  CreateBigQuery send i c = (Fail e, c).
Proof.
  unfold spec_create_order, first_missing, CreateBigQuery. intros H.
  repeat match type of H with
         | (if ?b then _ else _) = Some _ =>
             destruct b; [injection H as <-; reflexivity|]
         end.
  discriminate H.
Qed.

(** C2. Each of the four operations answers an empty service with
    ErrMissingService, and a non-empty service with version zero with
    ErrMissingVersion; the client is returned as it was, no request has
    gone out. *)
Theorem missing_service_then_version (o : operation) (c : Client W) :
  (op_Service o = "" -> perform send Ok o c = (Fail ErrMissingService, c)) /\
  (op_Service o <> "" -> op_Version o = 0%Z ->
   perform send Ok o c = (Fail ErrMissingVersion, c)).
Proof.
  split; [apply perform_missing_service | apply perform_missing_version].
Qed.

(** C3. A CreateBigQueryInput that passes validation makes CreateBigQuery
    issue exactly one request: a PostForm (form-encoded POST) to
    /service/{Service}/version/{Version}/logging/gcs. *)
Theorem CreateBigQuery_posts_to_gcs (i : CreateBigQueryInput.t) (c : Client W) :
  passes_validation (OpCreate i) ->
  exists ro : RequestOptions,
    sent (snd (CreateBigQuery send i c))
    = sent c ++
      [ {| Method := POST;
           Path := "/service/" +:+ i.(CreateBigQueryInput.Service) +:+ "/version/"
                   +:+ decimal i.(CreateBigQueryInput.Version) +:+ "/logging/gcs";
           Form := Some (FormCreate i);
           Options := Some ro |} ].
Proof.
  intros Hv. rewrite (CreateBigQuery_run i c Hv).
  exists {| Params := spec_create_params i |}. reflexivity.
Qed.

(** C4, as amended. A CreateBigQueryInput that passes validation has its six
    value fields (all but service and version) serialized into the request
    parameters of the POST: the parameter map has exactly six entries,
    name, project_id, dataset, table, user and secret_key, each bound to
    the input's field. *)
Theorem CreateBigQuery_params_six (i : CreateBigQueryInput.t) (c : Client W) :
  passes_validation (OpCreate i) ->
  exists (r : Request) (ro : RequestOptions),
    sent (snd (CreateBigQuery send i c)) = sent c ++ [r] /\
    Method r = POST /\
    Options r = Some ro /\
    size (Params ro) = 6 /\
    Params ro !! "name" = Some i.(CreateBigQueryInput.Name) /\
    Params ro !! "project_id" = Some i.(CreateBigQueryInput.ProjectID) /\
    Params ro !! "dataset" = Some i.(CreateBigQueryInput.Dataset) /\
    Params ro !! "table" = Some i.(CreateBigQueryInput.Table) /\
    Params ro !! "user" = Some i.(CreateBigQueryInput.User) /\
    Params ro !! "secret_key" = Some i.(CreateBigQueryInput.SecretKey).
Proof.
  intros Hv. rewrite (CreateBigQuery_run i c Hv).
  exists (spec_request (OpCreate i)), {| Params := spec_create_params i |}.
  split; [reflexivity|]. split; [reflexivity|]. split; [reflexivity|].
  split; [apply create_params_size|].
  cbn [Params]. repeat split; vm_compute; reflexivity.
Qed.

(** C5. With a non-empty service and a non-zero version GetBigQuery issues
    exactly one request, a GET to
    /service/{Service}/version/{Version}/logging/bigquery; and when the
    answer's body decodes as an array of endpoint records, that array is
    what it returns: as many records, each at its position. *)
Theorem GetBigQuery_lists_in_order (i : GetBigQueryInput.t) (c : Client W) :
  i.(GetBigQueryInput.Service) <> "" ->
  i.(GetBigQueryInput.Version) <> 0%Z ->
  exists r : Request,
    r = {| Method := GET;
           Path := "/service/" +:+ i.(GetBigQueryInput.Service) +:+ "/version/"
                   +:+ decimal i.(GetBigQueryInput.Version) +:+ "/logging/bigquery";
           Form := None; Options := None |} /\
    sent (snd (GetBigQuery send i c)) = sent c ++ [r] /\
    forall (resp : Response) (bs : list (ptr BigQuery.t)),
      answer send r c = inr resp ->
      decodeJSON resp.(Body) = inr bs ->
      exists out : list (ptr BigQuery.t),
        fst (GetBigQuery send i c) = Val out /\
        length out = length bs /\
        forall k : nat, out !! k = bs !! k.
Proof.
  intros Hs Hv.
  assert (Hp : passes_validation (OpGet i)).
  { split; [repeat constructor; exact Hs | exact Hv]. }
  rewrite (GetBigQuery_run i c Hp).
  eexists. split; [reflexivity|]. split; [reflexivity|].
  intros resp bs Ha Hd. exists bs. split; [|split; [reflexivity | reflexivity]].
  cbn [fst]. change (spec_request (OpGet i)) with
    {| Method := GET;
       Path := "/service/" +:+ i.(GetBigQueryInput.Service) +:+ "/version/"
               +:+ decimal i.(GetBigQueryInput.Version) +:+ "/logging/bigquery";
       Form := None; Options := None |}.
  rewrite Ha. unfold decoded. now rewrite Hd.
Qed.

(** C6, as amended. An UpdateBigQueryInput that passes validation makes
    UpdateBigQuery issue exactly one request: a PutForm (form-encoded PUT),
    which is handed the whole input structure, current name included, as
    the form to encode, to
    /service/{Service}/version/{Version}/logging/bigquery/{Name}, the
    current name.  Its request parameters are the single entry
    name = NewName: the only value found in them is the NewName field, so
    the current name is not among the parameter values whenever it differs
    from NewName. *)
Theorem UpdateBigQuery_puts_new_name (i : UpdateBigQueryInput.t) (c : Client W) :
  passes_validation (OpUpdate i) ->
  exists (r : Request) (ro : RequestOptions),
    sent (snd (UpdateBigQuery send i c)) = sent c ++ [r] /\
    Method r = PUT /\
    Form r = Some (FormUpdate i) /\
    Path r = "/service/" +:+ i.(UpdateBigQueryInput.Service) +:+ "/version/"
             +:+ decimal i.(UpdateBigQueryInput.Version)
             +:+ "/logging/bigquery/" +:+ i.(UpdateBigQueryInput.Name) /\
    Options r = Some ro /\
    Params ro = {[ "name" := i.(UpdateBigQueryInput.NewName) ]} /\
    (forall k v : string,
        Params ro !! k = Some v ->
        k = "name" /\ v = i.(UpdateBigQueryInput.NewName)) /\
    (i.(UpdateBigQueryInput.Name) <> i.(UpdateBigQueryInput.NewName) ->
     forall k : string, Params ro !! k <> Some i.(UpdateBigQueryInput.Name)).
Proof.
  intros Hv. rewrite (UpdateBigQuery_run i c Hv).
  exists (spec_request (OpUpdate i)),
         {| Params := {[ "name" := i.(UpdateBigQueryInput.NewName) ]} |}.
  repeat (split; [reflexivity|]). cbn [Params]. split.
  - intros k v Hk. apply lookup_singleton_Some in Hk as [<- <-]. now split.
  - intros Hne k Hk. apply lookup_singleton_Some in Hk as [_ Hk].
    apply Hne. now rewrite Hk.
Qed.

(** C7. With a non-empty service and a non-zero version, UpdateBigQuery
    answers an empty current name with ErrMissingName and, the current name
    being non-empty, an empty new name with ErrMissingNewName; the client
    is returned as it was. *)
Theorem UpdateBigQuery_missing_names (i : UpdateBigQueryInput.t) (c : Client W) :
  i.(UpdateBigQueryInput.Service) <> "" ->
  i.(UpdateBigQueryInput.Version) <> 0%Z ->
  (i.(UpdateBigQueryInput.Name) = "" ->
   UpdateBigQuery send i c = (Fail ErrMissingName, c)) /\
  (i.(UpdateBigQueryInput.Name) <> "" -> i.(UpdateBigQueryInput.NewName) = "" ->
   UpdateBigQuery send i c = (Fail ErrMissingNewName, c)).
Proof.
  intros Hs Hv. unfold UpdateBigQuery. pass_guards. split.
  - intros Hn. now rewrite Hn.
  - intros Hn Hnew. pass_guards. now rewrite Hnew.
Qed.

(** C8. When a DeleteBigQueryInput passes validation and the body of the
    transport's answer decodes into a status record, DeleteBigQuery returns
    nil exactly when the record's Ok() holds; otherwise it returns the
    fixed error made from the message Not Ok, in which nothing of the
    response appears. *)
Theorem DeleteBigQuery_ok_iff_acknowledged
    (i : DeleteBigQueryInput.t) (c : Client W) (resp : Response) (s : statusResp) :
  passes_validation (OpDelete i) ->
  answer send (spec_request (OpDelete i)) c = inr resp ->
  decodeJSON (T := ptr statusResp) resp.(Body) = inr (Some s) ->
  (fst (DeleteBigQuery send Ok i c) = Val tt <-> Ok s = true) /\
  (Ok s = false -> fst (DeleteBigQuery send Ok i c) = Fail (Errorf "Not Ok")).
Proof.
  intros Hv Ha Hd. rewrite (DeleteBigQuery_run i c Hv), Ha.
  unfold decoded. rewrite Hd. cbn [fst acknowledged].
  destruct (Ok s); split; try split; intros H; try reflexivity; discriminate H.
Qed.

(** C9, as amended. For each of the four operations a version equal to
    zero fails validation (ErrMissingVersion, the service being non-empty)
    before anything is sent; every other version, negative ones included,
    passes the version check: with the required strings non-empty the
    request goes out, the version printed in decimal in its path. *)
Theorem version_zero_rejected_others_accepted (o : operation) (c : Client W) :
  (op_Service o <> "" -> op_Version o = 0%Z ->
   perform send Ok o c = (Fail ErrMissingVersion, c)) /\
  (Forall (fun s => s <> "") (op_strings o) -> op_Version o <> 0%Z ->
   sent (snd (perform send Ok o c)) = sent c ++ [spec_request o] /\
   exists resource : string,
     Path (spec_request o)
     = "/service/" +:+ op_Service o +:+ "/version/" +:+ decimal (op_Version o)
       +:+ "/logging/" +:+ resource).
Proof.
  split; [apply perform_missing_version|].
  intros Hs Hv. rewrite perform_run by (split; assumption).
  split; [reflexivity|].
  destruct o as [i|i|i|i]; eexists; reflexivity.
Qed.

(** C10. Validation compares required strings with the empty string and
    nothing else: an invocation, of any of the four operations, whose
    required strings are all blank but non-empty and whose version is
    non-zero passes validation, and its request goes out with each of those
    blank strings in its path or among its parameter values. *)
Theorem whitespace_passes_validation (o : operation) (c : Client W) :
  Forall (fun s => whitespace s = true /\ s <> "") (op_strings o) ->
  op_Version o <> 0%Z ->
  sent (snd (perform send Ok o c)) = sent c ++ [spec_request o] /\
  Forall (fun s => embedded s (spec_request o)) (op_strings o).
Proof.
  intros Hs Hv. split.
  - rewrite perform_run; [reflexivity|]. split; [|exact Hv].
    eapply Forall_impl; [exact Hs|]. now intros s [_ Hne].
  - clear Hs Hv.
    assert (in_path : forall svc v res s post,
               res = "bigquery/" +:+ s +:+ post ->
               exists pre post', logging_path svc v res = pre +:+ s +:+ post').
    { intros svc v res s post ->.
      exists ("/service/" +:+ svc +:+ "/version/" +:+ decimal v +:+ "/logging/bigquery/"),
             post.
      unfold logging_path. now rewrite !append_assoc. }
    assert (in_head : forall svc v res,
               exists pre post', logging_path svc v res = pre +:+ svc +:+ post').
    { intros svc v res. now exists "/service/", ("/version/" +:+ decimal v +:+ "/logging/" +:+ res). }
    destruct o as [i|i|i|i]; cbn [op_strings spec_request];
      repeat apply List.Forall_cons; try apply List.Forall_nil;
      try (left; cbn [Path]; apply in_head).
    1-6: right; eexists; eexists; (split; [reflexivity|]); cbn [Params].
    + instantiate (1 := "name"). vm_compute. reflexivity.
    + instantiate (1 := "project_id"). vm_compute. reflexivity.
    + instantiate (1 := "dataset"). vm_compute. reflexivity.
    + instantiate (1 := "table"). vm_compute. reflexivity.
    + instantiate (1 := "user"). vm_compute. reflexivity.
    + instantiate (1 := "secret_key"). vm_compute. reflexivity.
    + left. cbn [Path]. eapply in_path. now rewrite append_empty_r.
    + right. exists {| Params := {[ "name" := i.(UpdateBigQueryInput.NewName) ]} |}, "name".
      split; [reflexivity|]. apply lookup_singleton_eq.
    + left. cbn [Path]. eapply in_path. now rewrite append_empty_r.
Qed.

End Properties.

(** ** The properties on the scripted remote side *)

#[local] Existing Instances Demo.decode_list Demo.decode_one Demo.decode_status.

(** Closes [Forall P [s1; ...; sn]] over literal strings, and the pair of a
    string test with a version test. *)
Ltac each_string tac :=
  repeat (apply List.Forall_cons; [tac|]); apply List.Forall_nil.

Ltac valid_input :=
  split; [each_string ltac:(discriminate) | discriminate].

Lemma CreateBigQuery_first_missing_wins_witness :
  first_missing (spec_create_order Demo.no_table_no_user_input)
  = Some ErrMissingTable /\
  CreateBigQuery Demo.send Demo.no_table_no_user_input (Demo.client [])
  = (Fail ErrMissingTable, Demo.client []).
Proof.
  split; [reflexivity|].
  apply (CreateBigQuery_first_missing_wins Demo.send). reflexivity.
Defined.

Lemma missing_service_then_version_witness :
  Demo.run (OpDelete {| DeleteBigQueryInput.Service := "";
                        DeleteBigQueryInput.Version := 0;
                        DeleteBigQueryInput.Name := "" |}) []
  = (Fail ErrMissingService, Demo.client []) /\
  Demo.run (OpUpdate {| UpdateBigQueryInput.Service := "svc123";
                        UpdateBigQueryInput.Version := 0;
                        UpdateBigQueryInput.Name := "";
                        UpdateBigQueryInput.NewName := "" |}) []
  = (Fail ErrMissingVersion, Demo.client []).
Proof.
  split.
  - apply (proj1 (missing_service_then_version Demo.send Demo.Ok _ _)).
    reflexivity.
  - apply (proj2 (missing_service_then_version Demo.send Demo.Ok _ _));
      [discriminate | reflexivity].
Defined.

Lemma CreateBigQuery_posts_to_gcs_witness :
  passes_validation (OpCreate Demo.create_input) /\
  exists ro : RequestOptions,
    sent (snd (CreateBigQuery Demo.send Demo.create_input (Demo.client [])))
    = [ {| Method := POST;
           Path := "/service/svc123/version/3/logging/gcs";
           Form := Some (FormCreate Demo.create_input);
           Options := Some ro |} ].
Proof.
  split; [valid_input|].
  apply (CreateBigQuery_posts_to_gcs Demo.send Demo.create_input (Demo.client [])).
  valid_input.
Defined.

(** C4, as stated, fails: the parameter map of the request has six
    entries, not seven. *)
Lemma CreateBigQuery_params_not_seven :
  passes_validation (OpCreate Demo.create_input) /\
  exists (r : Request) (ro : RequestOptions),
    sent (snd (CreateBigQuery Demo.send Demo.create_input
                 (Demo.client [inr {| Body := "a" |}]))) = [r] /\
    Options r = Some ro /\
    size (Params ro) = 6 /\
    size (Params ro) <> 7.
Proof.
  split; [valid_input|].
  exists (spec_request (OpCreate Demo.create_input)),
         {| Params := spec_create_params Demo.create_input |}.
  split; [vm_compute; reflexivity|]. split; [reflexivity|].
  split; [vm_compute; reflexivity | vm_compute; discriminate].
Qed.

Lemma CreateBigQuery_params_six_witness :
  passes_validation (OpCreate Demo.create_input) /\
  exists (r : Request) (ro : RequestOptions),
    sent (snd (CreateBigQuery Demo.send Demo.create_input (Demo.client [])))
    = sent (Demo.client []) ++ [r] /\
    Method r = POST /\
    Options r = Some ro /\
    size (Params ro) = 6 /\
    Params ro !! "name" = Some "logs" /\
    Params ro !! "project_id" = Some "proj" /\
    Params ro !! "dataset" = Some "ds" /\
    Params ro !! "table" = Some "tbl" /\
    Params ro !! "user" = Some "writer" /\
    Params ro !! "secret_key" = Some "s3cr3t".
Proof.
  split; [valid_input|].
  apply (CreateBigQuery_params_six Demo.send Demo.create_input (Demo.client [])).
  valid_input.
Defined.

Lemma GetBigQuery_lists_in_order_witness :
  Demo.get_input.(GetBigQueryInput.Service) <> "" /\
  Demo.get_input.(GetBigQueryInput.Version) <> 0%Z /\
  sent (snd (GetBigQuery Demo.send Demo.get_input
               (Demo.client [inr {| Body := "[b,a,b]" |}])))
  = [ {| Method := GET; Path := "/service/svc123/version/3/logging/bigquery";
         Form := None; Options := None |} ] /\
  exists out : list (ptr BigQuery.t),
    fst (GetBigQuery Demo.send Demo.get_input
           (Demo.client [inr {| Body := "[b,a,b]" |}])) = Val out /\
    length out = 3 /\
    forall k : nat,
      out !! k = [ Some (Demo.endpoint "svc123" "b");
                   Some (Demo.endpoint "svc123" "a");
                   Some (Demo.endpoint "svc123" "b") ] !! k.
Proof.
  split; [discriminate|]. split; [discriminate|].
  destruct (GetBigQuery_lists_in_order Demo.send Demo.get_input
              (Demo.client [inr {| Body := "[b,a,b]" |}]))
    as (r & Hr & Hsent & Hout); [discriminate | discriminate |].
  subst r. split; [exact Hsent|].
  exact (Hout {| Body := "[b,a,b]" |} _ eq_refl eq_refl).
Defined.

(** C6, as stated, fails: renaming an endpoint to the name it already has
    passes validation, and the request then carries the current name as
    the value of its one parameter; besides, the input structure handed to
    PutForm as the form holds the current name. *)
Lemma UpdateBigQuery_old_name_sent :
  passes_validation (OpUpdate Demo.same_name_input) /\
  exists (r : Request) (ro : RequestOptions),
    sent (snd (UpdateBigQuery Demo.send Demo.same_name_input
                 (Demo.client [inr {| Body := "a" |}]))) = [r] /\
    Options r = Some ro /\
    Params ro !! "name" = Some Demo.same_name_input.(UpdateBigQueryInput.Name) /\
    Form r = Some (FormUpdate Demo.same_name_input) /\
    Demo.same_name_input.(UpdateBigQueryInput.Name) = "endpoint".
Proof.
  split; [valid_input|].
  exists (spec_request (OpUpdate Demo.same_name_input)),
         {| Params := {[ "name" := "endpoint" ]} |}.
  split; [vm_compute; reflexivity|]. split; [reflexivity|].
  split; [vm_compute; reflexivity|]. split; reflexivity.
Qed.

Lemma UpdateBigQuery_puts_new_name_witness :
  passes_validation (OpUpdate Demo.update_input) /\
  exists (r : Request) (ro : RequestOptions),
    sent (snd (UpdateBigQuery Demo.send Demo.update_input (Demo.client [])))
    = sent (Demo.client []) ++ [r] /\
    Method r = PUT /\
    Form r = Some (FormUpdate Demo.update_input) /\
    Path r = "/service/svc123/version/3/logging/bigquery/old-endpoint" /\
    Options r = Some ro /\
    Params ro = {[ "name" := "new-endpoint" ]} /\
    (forall k v : string,
        Params ro !! k = Some v -> k = "name" /\ v = "new-endpoint") /\
    ("old-endpoint" <> "new-endpoint" ->
     forall k : string, Params ro !! k <> Some "old-endpoint").
Proof.
  split; [valid_input|].
  apply (UpdateBigQuery_puts_new_name Demo.send Demo.update_input (Demo.client [])).
  valid_input.
Defined.

Lemma UpdateBigQuery_missing_names_witness :
  UpdateBigQuery Demo.send Demo.unnamed_update_input (Demo.client [])
  = (Fail ErrMissingName, Demo.client []) /\
  UpdateBigQuery Demo.send Demo.no_new_name_input (Demo.client [])
  = (Fail ErrMissingNewName, Demo.client []).
Proof.
  split.
  - destruct (UpdateBigQuery_missing_names Demo.send Demo.unnamed_update_input
                (Demo.client [])) as [Hname _]; [discriminate | discriminate |].
    exact (Hname eq_refl).
  - destruct (UpdateBigQuery_missing_names Demo.send Demo.no_new_name_input
                (Demo.client [])) as [_ Hnew]; [discriminate | discriminate |].
    apply Hnew; [discriminate | reflexivity].
Defined.

Lemma DeleteBigQuery_ok_iff_acknowledged_witness :
  passes_validation (OpDelete Demo.delete_input) /\
  (fst (DeleteBigQuery Demo.send Demo.Ok Demo.delete_input
          (Demo.client [inr {| Body := "ok" |}])) = Val tt
   <-> Demo.Ok {| Demo.Status := "ok"; Demo.Msg := "" |} = true) /\
  (Demo.Ok {| Demo.Status := "error"; Demo.Msg := "Record not found" |} = false ->
   fst (DeleteBigQuery Demo.send Demo.Ok Demo.delete_input
          (Demo.client [inr {| Body := "ko" |}])) = Fail (Errorf "Not Ok")).
Proof.
  assert (Hv : passes_validation (OpDelete Demo.delete_input)) by valid_input.
  split; [exact Hv|]. split.
  - exact (proj1 (DeleteBigQuery_ok_iff_acknowledged Demo.send Demo.Ok
                    Demo.delete_input (Demo.client [inr {| Body := "ok" |}])
                    {| Body := "ok" |} _ Hv eq_refl eq_refl)).
  - exact (proj2 (DeleteBigQuery_ok_iff_acknowledged Demo.send Demo.Ok
                    Demo.delete_input (Demo.client [inr {| Body := "ko" |}])
                    {| Body := "ko" |} _ Hv eq_refl eq_refl)).
Defined.

(** C9, as stated, fails: version -1 is not positive, yet GetBigQuery
    sends its request and returns what the remote side listed. *)
Lemma negative_version_not_rejected :
  (op_Version (OpGet Demo.negative_version_input) <= 0)%Z /\
  GetBigQuery Demo.send Demo.negative_version_input
    (Demo.client [inr {| Body := "[a,b]" |}])
  = (Val [Some (Demo.endpoint "svc123" "a"); Some (Demo.endpoint "svc123" "b")],
     {| conn := [];
        sent := [ {| Method := GET;
                     Path := "/service/svc123/version/-1/logging/bigquery";
                     Form := None; Options := None |} ] |}) /\
  sent (snd (Demo.run (OpGet Demo.negative_version_input)
               [inr {| Body := "[a,b]" |}])) <> [].
Proof.
  split; [cbn; lia|]. split; [reflexivity | discriminate].
Qed.

Lemma version_zero_rejected_others_accepted_witness :
  Forall (fun s => s <> "") (op_strings (OpGet Demo.negative_version_input)) /\
  op_Version (OpGet Demo.negative_version_input) <> 0%Z /\
  sent (snd (Demo.run (OpGet Demo.negative_version_input) []))
  = [ {| Method := GET; Path := "/service/svc123/version/-1/logging/bigquery";
         Form := None; Options := None |} ] /\
  Demo.run (OpGet {| GetBigQueryInput.Service := "svc123";
                     GetBigQueryInput.Version := 0 |}) []
  = (Fail ErrMissingVersion, Demo.client []).
Proof.
  split; [each_string ltac:(discriminate)|]. split; [discriminate|]. split.
  - apply (proj2 (version_zero_rejected_others_accepted Demo.send Demo.Ok
                    (OpGet Demo.negative_version_input) (Demo.client []))).
    + each_string ltac:(discriminate).
    + discriminate.
  - apply (proj1 (version_zero_rejected_others_accepted Demo.send Demo.Ok _ _));
      [discriminate | reflexivity].
Defined.

Lemma whitespace_passes_validation_witness :
  Forall (fun s => whitespace s = true /\ s <> "")
    (op_strings (OpDelete Demo.blank_delete_input)) /\
  op_Version (OpDelete Demo.blank_delete_input) <> 0%Z /\
  sent (snd (Demo.run (OpDelete Demo.blank_delete_input) []))
  = [ {| Method := DELETE; Path := "/service/ /version/3/logging/bigquery/ ";
         Form := None; Options := None |} ] /\
  Forall (fun s => embedded s (spec_request (OpDelete Demo.blank_delete_input)))
    [" "; " "].
Proof.
  assert (Hs : Forall (fun s => whitespace s = true /\ s <> "")
                 (op_strings (OpDelete Demo.blank_delete_input))).
  { each_string ltac:(split; [reflexivity | discriminate]). }
  split; [exact Hs|]. split; [discriminate|].
  apply (whitespace_passes_validation Demo.send Demo.Ok
           (OpDelete Demo.blank_delete_input) (Demo.client []) Hs).
  discriminate.
Defined.

(** ** More on strings and paths *)

Lemma list_ascii_append (s t : string) :
  list_ascii_of_string (s +:+ t) = list_ascii_of_string s ++ list_ascii_of_string t.
Proof.
  induction s as [|a s IH]; [reflexivity|].
  change (a :: list_ascii_of_string (s +:+ t)
          = a :: (list_ascii_of_string s ++ list_ascii_of_string t)).
  now rewrite IH.
Qed.

Lemma list_ascii_inj (s t : string) :
  list_ascii_of_string s = list_ascii_of_string t -> s = t.
Proof.
  intros H. rewrite <- (string_of_list_ascii_of_string s), H.
  apply string_of_list_ascii_of_string.
Qed.

Lemma append_inv_head (s t u : string) : s +:+ t = s +:+ u -> t = u.
Proof.
  induction s as [|a s IH]; [trivial|].
  change (String a (s +:+ t) = String a (s +:+ u) -> t = u).
  intros [= H]. now apply IH.
Qed.

Lemma append_inv_tail (s t u : string) : s +:+ u = t +:+ u -> s = t.
Proof.
  intros H. apply list_ascii_inj.
  apply (f_equal list_ascii_of_string) in H. rewrite !list_ascii_append in H.
  now apply app_inv_tail in H.
Qed.

Lemma decimal_parse (n : Z) :
  NilZero.int_of_string (decimal n) = Some (Z.to_int n).
Proof.
  unfold decimal. apply NilZero.isi; destruct n as [|p|p]; cbn; try discriminate;
    intros [= E]; now apply (DecimalPos.Unsigned.to_uint_nonnil p).
Qed.

Lemma decimal_inj (n m : Z) : decimal n = decimal m -> n = m.
Proof.
  intros H. apply DecimalZ.to_int_inj.
  apply (f_equal NilZero.int_of_string) in H.
  rewrite !decimal_parse in H. now injection H.
Qed.

Lemma logging_path_split (svc : string) (v : Z) (resource : string) :
  logging_path svc v resource
  = ("/service/" +:+ svc +:+ "/version/" +:+ decimal v +:+ "/logging/") +:+ resource.
Proof. unfold logging_path. now rewrite !append_assoc. Qed.

Lemma collections_differ (svc svc' : string) (v v' : Z) :
  logging_path svc v "gcs" <> logging_path svc' v' "bigquery".
Proof.
  rewrite !logging_path_split. intros H.
  apply (f_equal list_ascii_of_string) in H. rewrite !list_ascii_append in H.
  apply (f_equal (@rev ascii)) in H. rewrite !rev_app_distr in H.
  cbn in H. discriminate H.
Qed.

(** ** Further properties of the operations *)

Section Further.

Context {W : Type} (send : Request -> W -> (error + Response) * W).
Context {statusResp : Type} (Ok : statusResp -> bool).
Context {dec_list : JSONTarget (list (ptr BigQuery.t))}
        {dec_one : JSONTarget (ptr BigQuery.t)}
        {dec_status : JSONTarget (ptr statusResp)}.

(** Unfolds the dispatch at a valid invocation down to the answer of the
    transport. *)
Ltac run_valid Hv :=
  unfold perform, bind;
  first [ rewrite (GetBigQuery_run send _ _ Hv)
        | rewrite (CreateBigQuery_run send _ _ Hv)
        | rewrite (UpdateBigQuery_run send _ _ Hv)
        | rewrite (DeleteBigQuery_run send Ok _ _ Hv) ].

(** Either every guard passes, or the first one that does not decides the
    outcome, whatever the client. *)
Lemma validation_cases (o : operation) :
  passes_validation o \/
  exists e : error,
    is_missing e = true /\ forall c : Client W, perform send Ok o c = (Fail e, c).
Proof.
  destruct o as [i|i|i|i]; unfold passes_validation;
    cbn [op_strings op_Version];
    unfold perform, bind, GetBigQuery, CreateBigQuery, UpdateBigQuery, DeleteBigQuery;
    repeat match goal with
           | |- context [String.eqb ?s ""] =>
               destruct (String.eqb_spec s "") as [?|?];
               [right; eexists; split; [|intros c; reflexivity]; reflexivity|]
           | |- context [Z.eqb ?n 0] =>
               destruct (Z.eqb_spec n 0) as [?|?];
               [right; eexists; split; [|intros c; reflexivity]; reflexivity|]
           end;
    left; (split; [|assumption]);
    repeat (apply List.Forall_cons; [assumption|]); apply List.Forall_nil.
Qed.

Lemma sent_after (o : operation) (c : Client W) :
  passes_validation o ->
  sent (snd (perform send Ok o c)) = sent c ++ [spec_request o].
Proof. intros Hv. now rewrite perform_run. Qed.

(** X1. With a non-empty service and a non-zero version, DeleteBigQuery
    answers an empty name with ErrMissingName and returns the client as it
    was. *)
Theorem DeleteBigQuery_missing_name (i : DeleteBigQueryInput.t) (c : Client W) :
  i.(DeleteBigQueryInput.Service) <> "" ->
  i.(DeleteBigQueryInput.Version) <> 0%Z ->
  i.(DeleteBigQueryInput.Name) = "" ->
  DeleteBigQuery send Ok i c = (Fail ErrMissingName, c).
Proof.
  intros Hs Hv Hn. unfold DeleteBigQuery.
  now rewrite (nonempty_eqb _ Hs), (nonzero_eqb _ Hv), Hn.
Qed.

(** X2. A DeleteBigQueryInput that passes validation makes DeleteBigQuery
    issue exactly one request: a DELETE to
    /service/{Service}/version/{Version}/logging/bigquery/{Name}, with no
    form and no request options. *)
Theorem DeleteBigQuery_request (i : DeleteBigQueryInput.t) (c : Client W) :
  passes_validation (OpDelete i) ->
  sent (snd (DeleteBigQuery send Ok i c))
  = sent c ++
    [ {| Method := DELETE;
         Path := "/service/" +:+ i.(DeleteBigQueryInput.Service) +:+ "/version/"
                 +:+ decimal i.(DeleteBigQueryInput.Version)
                 +:+ "/logging/bigquery/" +:+ i.(DeleteBigQueryInput.Name);
         Form := None; Options := None |} ].
Proof. intros Hv. now rewrite (DeleteBigQuery_run send Ok i c Hv). Qed.

(** X3. When the transport reports an error for the request of a valid
    invocation, each of the four operations returns that very error; the
    one request has been sent and nothing is decoded. *)
Theorem transport_error_unchanged (o : operation) (c : Client W) (e : error) :
  passes_validation o ->
  answer send (spec_request o) c = inl e ->
  fst (perform send Ok o c) = Fail e /\
  sent (snd (perform send Ok o c)) = sent c ++ [spec_request o].
Proof.
  intros Hv Ha. split; [|now apply sent_after].
  destruct o as [i|i|i|i]; run_valid Hv; now rewrite Ha.
Qed.

(** X4. When the transport answers and the decoder rejects the body, each
    of the four operations returns the decoder's error unchanged. *)
Theorem decode_error_unchanged
    (o : operation) (c : Client W) (resp : Response) (e : error) :
  passes_validation o ->
  answer send (spec_request o) c = inr resp ->
  decode_fails o resp.(Body) e ->
  fst (perform send Ok o c) = Fail e /\
  sent (snd (perform send Ok o c)) = sent c ++ [spec_request o].
Proof.
  intros Hv Ha Hd. split; [|now apply sent_after].
  destruct o as [i|i|i|i]; cbn [decode_fails] in Hd; run_valid Hv;
    rewrite Ha; unfold decoded; now rewrite Hd.
Qed.

(** X5. On a valid input whose answer decodes, CreateBigQuery returns the
    decoded pointer as the decoder left it (nil included), with a nil
    error. *)
Theorem CreateBigQuery_returns_decoded
    (i : CreateBigQueryInput.t) (c : Client W) (resp : Response)
    (b : ptr BigQuery.t) :
  passes_validation (OpCreate i) ->
  answer send (spec_request (OpCreate i)) c = inr resp ->
  decodeJSON (T := ptr BigQuery.t) resp.(Body) = inr b ->
  fst (CreateBigQuery send i c) = Val b.
Proof.
  intros Hv Ha Hd. rewrite (CreateBigQuery_run send i c Hv), Ha.
  unfold decoded. now rewrite Hd.
Qed.

(** X6. On a valid input whose answer decodes, UpdateBigQuery returns the
    decoded pointer as the decoder left it, with a nil error. *)
Theorem UpdateBigQuery_returns_decoded
    (i : UpdateBigQueryInput.t) (c : Client W) (resp : Response)
    (b : ptr BigQuery.t) :
  passes_validation (OpUpdate i) ->
  answer send (spec_request (OpUpdate i)) c = inr resp ->
  decodeJSON (T := ptr BigQuery.t) resp.(Body) = inr b ->
  fst (UpdateBigQuery send i c) = Val b.
Proof.
  intros Hv Ha Hd. rewrite (UpdateBigQuery_run send i c Hv), Ha.
  unfold decoded. now rewrite Hd.
Qed.

(** X7. Whatever the input and whatever the remote side does, an operation
    sends at most one request, and the requests sent before stay in the
    log, in place. *)
Theorem at_most_one_request (o : operation) (c : Client W) :
  exists l : list Request,
    sent (snd (perform send Ok o c)) = sent c ++ l /\ length l <= 1.
Proof.
  destruct (validation_cases o) as [Hv | (e & _ & He)].
  - exists [spec_request o]. split; [now apply sent_after | reflexivity].
  - exists []. rewrite He. split; [now rewrite app_nil_r | cbn; lia].
Qed.

(** X8. No operation reports success without having talked to the remote
    side: a nil error means the input passed validation and the request
    was sent. *)
Theorem success_means_request_sent (o : operation) (c : Client W) (v : reply) :
  fst (perform send Ok o c) = Val v ->
  passes_validation o /\
  sent (snd (perform send Ok o c)) = sent c ++ [spec_request o].
Proof.
  intros Hval. destruct (validation_cases o) as [Hv | (e & _ & He)].
  - split; [exact Hv | now apply sent_after].
  - rewrite He in Hval. discriminate Hval.
Qed.

(** X9. An invocation that fails validation returns one of the nine
    missing-field errors and hands the client back untouched. *)
Theorem invalid_input_rejected_locally (o : operation) (c : Client W) :
  ~ passes_validation o ->
  exists e : error, is_missing e = true /\ perform send Ok o c = (Fail e, c).
Proof.
  intros Hn. destruct (validation_cases o) as [Hv | (e & Hm & He)].
  - contradiction.
  - exists e. split; [exact Hm | apply He].
Qed.

(** X10. The log of sent requests is left as it was exactly when the input
    fails validation: validation is the only thing that keeps a request
    from going out. *)
Theorem nothing_sent_iff_invalid (o : operation) (c : Client W) :
  sent (snd (perform send Ok o c)) = sent c <-> ~ passes_validation o.
Proof.
  split.
  - intros Hsame Hv. rewrite (sent_after o c Hv) in Hsame.
    apply (f_equal (@length Request)) in Hsame.
    rewrite length_app in Hsame. cbn in Hsame. lia.
  - intros Hn. destruct (validation_cases o) as [Hv | (e & _ & He)].
    + contradiction.
    + now rewrite He.
Qed.

(** X11. The path CreateBigQuery posts to is never a path GetBigQuery
    reads, whatever the services and versions: the first ends in gcs, the
    second in bigquery. *)
Theorem create_path_is_no_list_path
    (i : CreateBigQueryInput.t) (g : GetBigQueryInput.t)
    (c c' : Client W) (rc rg : Request) :
  passes_validation (OpCreate i) ->
  passes_validation (OpGet g) ->
  sent (snd (CreateBigQuery send i c)) = sent c ++ [rc] ->
  sent (snd (GetBigQuery send g c')) = sent c' ++ [rg] ->
  Path rc <> Path rg.
Proof.
  intros Hi Hg Hc Hl.
  rewrite (CreateBigQuery_run send i c Hi) in Hc.
  rewrite (GetBigQuery_run send g c' Hg) in Hl.
  apply app_inj_tail in Hc as [_ <-]. apply app_inj_tail in Hl as [_ <-].
  apply collections_differ.
Qed.

(** X12. For one service, version and name, UpdateBigQuery and
    DeleteBigQuery address the same path, and that path is the one
    GetBigQuery reads followed by a slash and the name. *)
Theorem item_path_extends_list_path
    (u : UpdateBigQueryInput.t) (d : DeleteBigQueryInput.t) (g : GetBigQueryInput.t)
    (cu cd cg : Client W) (ru rd rg : Request) :
  passes_validation (OpUpdate u) ->
  passes_validation (OpDelete d) ->
  passes_validation (OpGet g) ->
  op_Service (OpUpdate u) = op_Service (OpGet g) ->
  op_Service (OpDelete d) = op_Service (OpGet g) ->
  op_Version (OpUpdate u) = op_Version (OpGet g) ->
  op_Version (OpDelete d) = op_Version (OpGet g) ->
  u.(UpdateBigQueryInput.Name) = d.(DeleteBigQueryInput.Name) ->
  sent (snd (UpdateBigQuery send u cu)) = sent cu ++ [ru] ->
  sent (snd (DeleteBigQuery send Ok d cd)) = sent cd ++ [rd] ->
  sent (snd (GetBigQuery send g cg)) = sent cg ++ [rg] ->
  Path ru = Path rd /\
  Path ru = Path rg +:+ "/" +:+ u.(UpdateBigQueryInput.Name).
Proof.
  intros Hu Hd Hg Hsu Hsd Hvu Hvd Hn Eu Ed Eg. cbn in Hsu, Hsd, Hvu, Hvd.
  rewrite (UpdateBigQuery_run send u cu Hu) in Eu.
  rewrite (DeleteBigQuery_run send Ok d cd Hd) in Ed.
  rewrite (GetBigQuery_run send g cg Hg) in Eg.
  apply app_inj_tail in Eu as [_ <-]. apply app_inj_tail in Ed as [_ <-].
  apply app_inj_tail in Eg as [_ <-]. cbn [spec_request Path].
  rewrite Hsu, Hsd, Hvu, Hvd, <- Hn. split; [reflexivity|].
  rewrite !logging_path_split. now rewrite !append_assoc.
Qed.

(** X13. Within one service, the path GetBigQuery reads determines the
    version: two valid listings of the same service that go to the same
    path are listings of the same version. *)
Theorem list_path_determines_version
    (g g' : GetBigQueryInput.t) (c c' : Client W) (r r' : Request) :
  passes_validation (OpGet g) ->
  passes_validation (OpGet g') ->
  g.(GetBigQueryInput.Service) = g'.(GetBigQueryInput.Service) ->
  sent (snd (GetBigQuery send g c)) = sent c ++ [r] ->
  sent (snd (GetBigQuery send g' c')) = sent c' ++ [r'] ->
  Path r = Path r' ->
  g.(GetBigQueryInput.Version) = g'.(GetBigQueryInput.Version).
Proof.
  intros Hg Hg' Hs E E' Hp.
  rewrite (GetBigQuery_run send g c Hg) in E.
  rewrite (GetBigQuery_run send g' c' Hg') in E'.
  apply app_inj_tail in E as [_ <-]. apply app_inj_tail in E' as [_ <-].
  cbn [spec_request Path] in Hp. unfold logging_path in Hp. rewrite Hs in Hp.
  do 3 apply append_inv_head in Hp.
  apply append_inv_tail in Hp. now apply decimal_inj.
Qed.

(** X14. Within one service and version, the path DeleteBigQuery addresses
    determines the name: the name is copied into the path as it is, so two
    valid deletions that go to the same path delete the same name. *)
Theorem item_path_determines_name
    (d d' : DeleteBigQueryInput.t) (c c' : Client W) (r r' : Request) :
  passes_validation (OpDelete d) ->
  passes_validation (OpDelete d') ->
  d.(DeleteBigQueryInput.Service) = d'.(DeleteBigQueryInput.Service) ->
  d.(DeleteBigQueryInput.Version) = d'.(DeleteBigQueryInput.Version) ->
  sent (snd (DeleteBigQuery send Ok d c)) = sent c ++ [r] ->
  sent (snd (DeleteBigQuery send Ok d' c')) = sent c' ++ [r'] ->
  Path r = Path r' ->
  d.(DeleteBigQueryInput.Name) = d'.(DeleteBigQueryInput.Name).
Proof.
  intros Hd Hd' Hs Hv E E' Hp.
  rewrite (DeleteBigQuery_run send Ok d c Hd) in E.
  rewrite (DeleteBigQuery_run send Ok d' c' Hd') in E'.
  apply app_inj_tail in E as [_ <-]. apply app_inj_tail in E' as [_ <-].
  cbn [spec_request Path] in Hp. unfold logging_path in Hp. rewrite Hs, Hv in Hp.
  do 5 apply append_inv_head in Hp.
  now apply (append_inv_head "bigquery/") in Hp.
Qed.

End Further.

(** ** The further properties on the scripted remote side *)

Lemma DeleteBigQuery_missing_name_witness :
  DeleteBigQuery Demo.send Demo.Ok Demo.unnamed_delete_input
    (Demo.client [inr {| Body := "ok" |}])
  = (Fail ErrMissingName, Demo.client [inr {| Body := "ok" |}]).
Proof.
  apply (DeleteBigQuery_missing_name Demo.send Demo.Ok Demo.unnamed_delete_input);
    [discriminate | discriminate | reflexivity].
Defined.

Lemma DeleteBigQuery_request_witness :
  passes_validation (OpDelete Demo.delete_input) /\
  sent (snd (DeleteBigQuery Demo.send Demo.Ok Demo.delete_input (Demo.client [])))
  = [ {| Method := DELETE;
         Path := "/service/svc123/version/3/logging/bigquery/old-endpoint";
         Form := None; Options := None |} ].
Proof.
  split; [valid_input|].
  apply (DeleteBigQuery_request Demo.send Demo.Ok Demo.delete_input (Demo.client [])).
  valid_input.
Defined.

Lemma transport_error_unchanged_witness :
  passes_validation (OpUpdate Demo.update_input) /\
  answer Demo.send (spec_request (OpUpdate Demo.update_input))
    (Demo.client [inl (ErrForeign "timeout")]) = inl (ErrForeign "timeout") /\
  fst (Demo.run (OpUpdate Demo.update_input) [inl (ErrForeign "timeout")])
  = Fail (ErrForeign "timeout") /\
  sent (snd (Demo.run (OpUpdate Demo.update_input) [inl (ErrForeign "timeout")]))
  = [spec_request (OpUpdate Demo.update_input)].
Proof.
  split; [valid_input|]. split; [reflexivity|].
  apply (transport_error_unchanged Demo.send Demo.Ok
           (OpUpdate Demo.update_input) (Demo.client [inl (ErrForeign "timeout")]));
    [valid_input | reflexivity].
Defined.

Lemma decode_error_unchanged_witness :
  passes_validation (OpDelete Demo.delete_input) /\
  decode_fails (statusResp := Demo.statusResp) (OpDelete Demo.delete_input)
    "garbage" (ErrForeign "invalid JSON") /\
  fst (Demo.run (OpDelete Demo.delete_input) [inr {| Body := "garbage" |}])
  = Fail (ErrForeign "invalid JSON") /\
  sent (snd (Demo.run (OpDelete Demo.delete_input) [inr {| Body := "garbage" |}]))
  = [spec_request (OpDelete Demo.delete_input)].
Proof.
  split; [valid_input|]. split; [reflexivity|].
  apply (decode_error_unchanged Demo.send Demo.Ok
           (OpDelete Demo.delete_input) (Demo.client [inr {| Body := "garbage" |}])
           {| Body := "garbage" |});
    [valid_input | reflexivity | reflexivity].
Defined.

Lemma CreateBigQuery_returns_decoded_witness :
  passes_validation (OpCreate Demo.create_input) /\
  fst (CreateBigQuery Demo.send Demo.create_input
         (Demo.client [inr {| Body := "a" |}]))
  = Val (Some (Demo.endpoint "svc123" "a")) /\
  fst (CreateBigQuery Demo.send Demo.create_input
         (Demo.client [inr {| Body := "null" |}]))
  = Val None.
Proof.
  assert (Hv : passes_validation (OpCreate Demo.create_input)) by valid_input.
  split; [exact Hv|]. split.
  - exact (CreateBigQuery_returns_decoded Demo.send Demo.create_input
             (Demo.client [inr {| Body := "a" |}]) {| Body := "a" |} _
             Hv eq_refl eq_refl).
  - exact (CreateBigQuery_returns_decoded Demo.send Demo.create_input
             (Demo.client [inr {| Body := "null" |}]) {| Body := "null" |} _
             Hv eq_refl eq_refl).
Defined.

Lemma UpdateBigQuery_returns_decoded_witness :
  passes_validation (OpUpdate Demo.update_input) /\
  fst (UpdateBigQuery Demo.send Demo.update_input
         (Demo.client [inr {| Body := "a" |}]))
  = Val (Some (Demo.endpoint "svc123" "a")).
Proof.
  assert (Hv : passes_validation (OpUpdate Demo.update_input)) by valid_input.
  split; [exact Hv|].
  exact (UpdateBigQuery_returns_decoded Demo.send Demo.update_input
           (Demo.client [inr {| Body := "a" |}]) {| Body := "a" |} _
           Hv eq_refl eq_refl).
Defined.

Lemma success_means_request_sent_witness :
  fst (Demo.run (OpDelete Demo.delete_input) [inr {| Body := "ok" |}]) = Val Deleted /\
  passes_validation (OpDelete Demo.delete_input) /\
  sent (snd (Demo.run (OpDelete Demo.delete_input) [inr {| Body := "ok" |}]))
  = [spec_request (OpDelete Demo.delete_input)].
Proof.
  split; [reflexivity|].
  apply (success_means_request_sent Demo.send Demo.Ok
           (OpDelete Demo.delete_input) (Demo.client [inr {| Body := "ok" |}]) Deleted).
  reflexivity.
Defined.

Lemma invalid_input_rejected_locally_witness :
  ~ passes_validation (OpCreate Demo.no_table_no_user_input) /\
  exists e : error,
    is_missing e = true /\
    Demo.run (OpCreate Demo.no_table_no_user_input) [inr {| Body := "a" |}]
    = (Fail e, Demo.client [inr {| Body := "a" |}]).
Proof.
  assert (Hn : ~ passes_validation (OpCreate Demo.no_table_no_user_input)).
  { intros [Hs _]. cbn in Hs.
    do 4 apply Forall_cons in Hs as [_ Hs].
    apply Forall_cons in Hs as [Ht _]. now apply Ht. }
  split; [exact Hn|].
  exact (invalid_input_rejected_locally Demo.send Demo.Ok
           (OpCreate Demo.no_table_no_user_input)
           (Demo.client [inr {| Body := "a" |}]) Hn).
Defined.

Lemma create_path_is_no_list_path_witness :
  passes_validation (OpCreate Demo.create_input) /\
  passes_validation (OpGet Demo.get_input) /\
  Path (spec_request (OpCreate Demo.create_input))
  <> Path (spec_request (OpGet Demo.get_input)).
Proof.
  assert (Hc : passes_validation (OpCreate Demo.create_input)) by valid_input.
  assert (Hg : passes_validation (OpGet Demo.get_input)) by valid_input.
  split; [exact Hc|]. split; [exact Hg|].
  exact (create_path_is_no_list_path Demo.send Demo.create_input Demo.get_input
           (Demo.client []) (Demo.client []) _ _ Hc Hg eq_refl eq_refl).
Defined.

Lemma item_path_extends_list_path_witness :
  Path (spec_request (OpUpdate Demo.update_input))
  = Path (spec_request (OpDelete Demo.delete_input)) /\
  Path (spec_request (OpUpdate Demo.update_input))
  = Path (spec_request (OpGet Demo.get_input)) +:+ "/" +:+ "old-endpoint".
Proof.
  apply (item_path_extends_list_path Demo.send Demo.Ok
           Demo.update_input Demo.delete_input Demo.get_input
           (Demo.client []) (Demo.client []) (Demo.client []));
    first [valid_input | reflexivity].
Defined.

Lemma list_path_determines_version_witness :
  Path (spec_request (OpGet Demo.get_input))
  = Path (spec_request (OpGet Demo.get_input)) /\
  Demo.get_input.(GetBigQueryInput.Version) = 3%Z.
Proof.
  split; [reflexivity|].
  apply (list_path_determines_version Demo.send
           Demo.get_input Demo.get_input (Demo.client []) (Demo.client [])
           (spec_request (OpGet Demo.get_input)) (spec_request (OpGet Demo.get_input)));
    first [valid_input | reflexivity].
Defined.

Lemma item_path_determines_name_witness :
  Path (spec_request (OpDelete Demo.delete_input))
  = Path (spec_request (OpDelete Demo.delete_input)) /\
  Demo.delete_input.(DeleteBigQueryInput.Name) = "old-endpoint".
Proof.
  split; [reflexivity|].
  apply (item_path_determines_name Demo.send Demo.Ok
           Demo.delete_input Demo.delete_input (Demo.client []) (Demo.client [])
           (spec_request (OpDelete Demo.delete_input))
           (spec_request (OpDelete Demo.delete_input)));
    first [valid_input | reflexivity].
Defined.
